(** * ayon-toastnotify: the notification coordination core, shallow embedding

    Modelled modules (client/ayon_toastnotify/api):
    - notification_manager.py: [register_action_callback],
      [handle_action_callback], [ToastNotifyHandler.do_POST],
      [ToastNotifyHandler.do_GET], [NotificationManager.__init__]
      (port and timeout), [start], [stop], the start of [_run_server],
      [NotificationManager.show_notification], [get_toast_notify_port];
    - client.py: [ToastNotifyClient.send_notification],
      [ToastNotifyClient._try_http_notification],
      [ToastNotifyClient.check_service_health], [_send_async] and the
      module-level [send_notification];
    - platforms/macos.py: [_process_alerter_response];
    - platforms/linux_generic.py: [ToastNotifyLinuxPlatform.show_notification].

    A Python call that may raise is a function into [outcome A]; the
    exceptions are the classes that the modelled code catches or lets
    through. *)

From stdpp Require Import base gmap strings list.
From Stdlib Require Import ZArith.

Open Scope string_scope.
Open Scope Z_scope.
Set Warnings "-register-all".

(* ------------------------------------------------------------------ *)
(** ** Python exceptions *)

Inductive exc :=
| TypeError
| AttributeError
| KeyError
| ValueError
| JSONDecodeError
| UnicodeDecodeError
| URLError            (* urllib.error.URLError, HTTPError included *)
| SocketTimeout       (* socket.timeout *)
| OSError
| RuntimeError
| RecursionError.

Inductive outcome (A : Type) :=
| Ok (a : A)
| Raise (e : exc).
Arguments Ok {A} a.
Arguments Raise {A} e.

(** [except Exception]: every modelled exception is an [Exception]. *)
Definition is_ok {A} (o : outcome A) : bool :=
  match o with Ok _ => true | Raise _ => false end.

(* ------------------------------------------------------------------ *)
(** ** Action callback registry (notification_manager.py, lines 18-39) *)

Module Registry.

(** A caller-supplied [callback(action_id)]: it returns or raises. *)
Abbreviation callback := (string -> outcome unit).

(** The module globals [_action_callbacks] and, for observation, the
    log of every invocation [callback(action_id)] as (notification id,
    action id). The lock serialises the calls, so they are sequential. *)
Record state := mk_state {
  action_callbacks : gmap string callback;
  invoked : list (string * string)
}.

Definition register_action_callback (notification_id : string)
    (cb : callback) (st : state) : state :=
  mk_state (<[notification_id := cb]> (action_callbacks st)) (invoked st).

(** [handle_action_callback]: look up, call inside [try], pop and return
    True only when the call returned; the [except] logs and falls
    through to [return False]. *)
Definition handle_action_callback (notification_id action_id : string)
    (st : state) : outcome (bool * state) :=
  match action_callbacks st !! notification_id with
  | Some cb =>
      let st1 := mk_state (action_callbacks st)
                   (invoked st ++ [(notification_id, action_id)]) in
      match cb action_id with
      | Ok _ =>
          Ok (true, mk_state (delete notification_id (action_callbacks st1))
                      (invoked st1))
      | Raise _ => Ok (false, st1)
      end
  | None => Ok (false, st)
  end.

(** Number of invocations recorded for one notification id. *)
Definition calls_for (notification_id : string) (st : state) : nat :=
  length (filter (fun p => p.1 = notification_id) (invoked st)).

(** Resolve the same id twice in sequence. *)
Definition resolve_twice (notification_id action_id : string) (st : state)
    : outcome (bool * bool * state) :=
  match handle_action_callback notification_id action_id st with
  | Ok (r1, st1) =>
      match handle_action_callback notification_id action_id st1 with
      | Ok (r2, st2) => Ok (r1, r2, st2)
      | Raise e => Raise e
      end
  | Raise e => Raise e
  end.

Definition empty_state : state := mk_state ∅ [].

(** A handler that raises on every call. *)
Definition raising_callback : callback := fun _ => Raise ValueError.

End Registry.

(* ------------------------------------------------------------------ *)
(** ** Python values produced by [json.loads] *)

Inductive json :=
| JNull
| JBool (b : bool)
| JNum (z : Z)
| JStr (s : string)
| JArr (l : list json)
| JObj (kv : list (string * json)).

(** [d.get(k)] on a dict produced by [json.loads] (keys are unique). *)
Fixpoint assoc_get {A} (k : string) (kv : list (string * A)) : option A :=
  match kv with
  | [] => None
  | (k', v) :: rest => if String.eqb k k' then Some v else assoc_get k rest
  end.

Definition get_default (kv : list (string * json)) (k : string) (d : json)
    : json :=
  match assoc_get k kv with Some v => v | None => d end.

(** [d.pop(k, None)] *)
Definition assoc_remove {A} (k : string) (kv : list (string * A))
    : list (string * A) :=
  filter (fun p => negb (String.eqb k p.1)) kv.

(** [needle in haystack] on two Python [str]. *)
Fixpoint substring_in (needle hay : string) : bool :=
  String.prefix needle hay ||
  match hay with
  | EmptyString => false
  | String _ rest => substring_in needle rest
  end.

(* ------------------------------------------------------------------ *)
(** ** [bytes.decode('utf-8')] (strict): code points or a
    [UnicodeDecodeError] *)

Definition in_range (lo hi x : Z) : bool := (lo <=? x) && (x <=? hi).

Definition cont (b : Z) : bool := in_range 128 191 b.

Fixpoint utf8_decode (bs : list Z) : option (list Z) :=
  match bs with
  | [] => Some []
  | b1 :: r1 =>
      if in_range 0 127 b1 then
        cp ← utf8_decode r1; Some (b1 :: cp)
      else if in_range 194 223 b1 then
        match r1 with
        | b2 :: r2 =>
            if cont b2 then
              cp ← utf8_decode r2;
              Some ((Z.land b1 31 * 64 + Z.land b2 63) :: cp)
            else None
        | [] => None
        end
      else if in_range 224 239 b1 then
        match r1 with
        | b2 :: b3 :: r3 =>
            let lo := if b1 =? 224 then 160 else 128 in
            let hi := if b1 =? 237 then 159 else 191 in
            if in_range lo hi b2 && cont b3 then
              cp ← utf8_decode r3;
              Some ((Z.land b1 15 * 4096 + Z.land b2 63 * 64 + Z.land b3 63)
                    :: cp)
            else None
        | _ => None
        end
      else if in_range 240 244 b1 then
        match r1 with
        | b2 :: b3 :: b4 :: r4 =>
            let lo := if b1 =? 240 then 144 else 128 in
            let hi := if b1 =? 244 then 143 else 191 in
            if in_range lo hi b2 && cont b3 && cont b4 then
              cp ← utf8_decode r4;
              Some ((Z.land b1 7 * 262144 + Z.land b2 63 * 4096
                     + Z.land b3 63 * 64 + Z.land b4 63) :: cp)
            else None
        | _ => None
        end
      else None
  end.

(* ------------------------------------------------------------------ *)
(** ** POST /notify (notification_manager.py, [ToastNotifyHandler.do_POST]) *)

Module Server.

(** The keyword arguments of [NotificationManager.show_notification]
    as the handler passes them. *)
Record notify_args := mk_args {
  a_title : json;
  a_message : json;
  a_icon : json;
  a_timeout : json;
  a_actions : json;
  a_options : list (string * json)   (* **specific_options *)
}.

(** [int(self.headers.get('Content-Length', 0))]: header missing, an
    integer, or a value that [int] rejects with [ValueError]. *)
Inductive header_int := NoHeader | IntHeader (n : Z) | BadHeader.

Record request := mk_request {
  req_path : string;              (* urlparse(self.path).path *)
  req_content_length : header_int;
  req_stream : list Z             (* bytes available on self.rfile *)
}.

Inductive response :=
| SendError (code : Z)                (* self.send_error(code, ...) *)
| SendJson (code : Z) (body : json).

(** Parameters of [show_notification] named explicitly by the call in
    [do_POST], plus [self]: a key of [**specific_options] equal to one
    of them raises [TypeError] at the call. *)
Definition explicit_params : list string :=
  ["self"; "title"; "message"; "icon"; "timeout"; "actions"; "callback"].

Definition rfile_read (n : Z) (stream : list Z) : list Z :=
  if n <? 0 then stream else firstn (Z.to_nat n) stream.

(** The body bytes [do_POST] reads. *)
Definition read_body (req : request) : outcome (list Z) :=
  match req_content_length req with
  | NoHeader => Ok (rfile_read 0 (req_stream req))
  | IntHeader n => Ok (rfile_read n (req_stream req))
  | BadHeader => Raise ValueError
  end.

Section Handler.

(** [json.loads] on a decoded [str]: the value, or the exception it
    raises ([JSONDecodeError] for malformed text; also [ValueError] for
    an integer over the digit limit, [RecursionError] for deep
    nesting). *)
Variable json_loads : list Z -> outcome json.
(** [platform.system().lower()] *)
Variable system : string.
(** [self.server.notification_manager.notification_timeout] *)
Variable notification_timeout : Z.

(** [system in platform_options] *)
Definition contains_system (po : json) : outcome bool :=
  match po with
  | JObj kv => Ok (bool_decide (is_Some (assoc_get system kv)))
  | JArr l =>
      Ok (existsb (fun j => match j with
                            | JStr s => String.eqb s system
                            | _ => false
                            end) l)
  | JStr s => Ok (substring_in system s)
  | _ => Raise TypeError
  end.

(** [specific_options = platform_options[system]] then
    [specific_options.pop("timeout", None)]. *)
Definition specific_of (po : json) : outcome (list (string * json)) :=
  match po with
  | JObj kv =>
      match assoc_get system kv with
      | Some (JObj so) => Ok (assoc_remove "timeout" so)
      | Some (JArr _) => Raise TypeError        (* list.pop takes one argument *)
      | Some _ => Raise AttributeError          (* no .pop *)
      | None => Raise KeyError
      end
  | _ => Raise TypeError                        (* list/str indices *)
  end.

(** Lines 71-97 up to the call: the arguments of [show_notification]. *)
Definition extract_args (data : json) : outcome notify_args :=
  match data with
  | JObj kv =>
      let title := get_default kv "title" (JStr "AYON Notification") in
      let message := get_default kv "message" (JStr "") in
      let icon := get_default kv "icon" JNull in
      let timeout := get_default kv "timeout" (JNum notification_timeout) in
      let actions := get_default kv "actions" (JArr []) in
      let po := get_default kv "platform_options" (JObj []) in
      match contains_system po with
      | Raise e => Raise e
      | Ok false => Ok (mk_args title message icon timeout actions [])
      | Ok true =>
          match specific_of po with
          | Raise e => Raise e
          | Ok so =>
              if existsb (fun p => bool_decide (p.1 ∈ explicit_params)) so
              then Raise TypeError
              else Ok (mk_args title message icon timeout actions so)
          end
      end
  | _ => Raise AttributeError                  (* .get on a non-dict *)
  end.

(** What happens inside the outer [try]: the early [400] return, or
    the call of [show_notification] and its result. *)
Inductive post_step := BadJson | Dispatched (args : notify_args).

Definition notify_body (req : request) : outcome post_step :=
  match read_body req with
  | Raise e => Raise e
  | Ok bytes =>
      match utf8_decode bytes with
      | None => Raise UnicodeDecodeError
      | Some text =>
          match json_loads text with
          | Raise JSONDecodeError => Ok BadJson      (* the inner except *)
          | Raise e => Raise e
          | Ok data =>
              match extract_args data with
              | Raise e => Raise e
              | Ok args => Ok (Dispatched args)
              end
          end
      end
  end.

Definition status_body (result : bool) : json :=
  JObj [("status", JStr (if result then "success" else "error"))].

(** [do_POST] with [NotificationManager.show_notification] as [show]
    (that method catches everything and returns a bool). Returns the
    response and the list of dispatch calls made. *)
Definition do_POST (show : notify_args -> bool) (req : request)
    : response * list notify_args :=
  if negb (String.eqb (req_path req) "/notify") then (SendError 404, [])
  else
    match notify_body req with
    | Raise _ => (SendError 500, [])
    | Ok BadJson => (SendError 400, [])
    | Ok (Dispatched args) => (SendJson 200 (status_body (show args)), [args])
    end.


End Handler.

End Server.

(* ------------------------------------------------------------------ *)
(** ** Port allocation (notification_manager.py, [get_toast_notify_port]) *)

Module Port.

(** [random.getrandbits(k)] for [k <= 32]: the top [k] bits of the next
    32-bit word of the generator. *)
Definition getrandbits (k : Z) (word : Z) : Z := Z.shiftr (word mod 2 ^ 32) (32 - k).

(** [Random._randbelow_with_getrandbits(n)]: draw [k = n.bit_length()]
    bits until the value is below [n]. The generator's words are a list;
    [None]: the words given do not decide the result. *)
Fixpoint randbelow_loop (n k : Z) (words : list Z) : option (Z * list Z) :=
  match words with
  | [] => None
  | w :: rest =>
      let r := getrandbits k w in
      if r <? n then Some (r, rest) else randbelow_loop n k rest
  end.

Definition bit_length (n : Z) : Z := if n =? 0 then 0 else Z.log2 n + 1.

Definition randbelow (n : Z) (words : list Z) : option (Z * list Z) :=
  randbelow_loop n (bit_length n) words.

(** [random.randint(a, b)] = [randrange(a, b + 1)] = [a + _randbelow(b + 1 - a)]. *)
Definition randint (a b : Z) (words : list Z) : option Z :=
  match randbelow (b + 1 - a) words with
  | Some (r, _) => Some (a + r)
  | None => None
  end.

(** [get_toast_notify_port(settings)]. [bind] is the outcome of the
    transient socket: the port [getsockname()] reports, or the [OSError]
    of [socket]/[bind]. *)
Definition get_toast_notify_port (settings : list (string * json))
    (bind : outcome Z) (words : list Z) : option json :=
  match get_default settings "use_fixed_port" (JBool false) with
  | JBool true => Some (get_default settings "http_port" (JNum 5127))
  | _ =>
      match bind with
      | Ok port => Some (JNum port)
      | Raise _ => option_map JNum (randint 10000 65000 words)
      end
  end.

End Port.

(* ------------------------------------------------------------------ *)
(** ** Platform handlers and [NotificationManager.show_notification] *)

Module Platform.

(** A caller-supplied [on_action] callable, by identity. *)
Definition handler_ref := nat.

(** The keyword arguments of [platform_handler.show_notification(...)]:
    title, message, icon, timeout, actions, on_action and the
    [**platform_specific_options]. *)
Record dispatch_args := mk_dispatch {
  d_title : json;
  d_message : json;
  d_icon : json;
  d_timeout : json;
  d_actions : json;
  d_on_action : option handler_ref;
  d_options : list (string * json)
}.

Definition keywords (a : dispatch_args) : list string :=
  ["title"; "message"; "icon"; "timeout"; "actions"; "on_action"]
  ++ map fst (d_options a).

(** A Python signature: its named parameters and whether it has
    [**kwargs]. *)
Record signature := mk_sig { params : list string; var_kw : bool }.

(** Binding keyword arguments to a bound method: a keyword given twice
    (a [**options] key repeating a named argument) or naming [self], or
    an unexpected keyword without [**kwargs], is a [TypeError]. *)
Definition bind_keywords (s : signature) (kws : list string) : outcome unit :=
  if negb (bool_decide (NoDup kws)) || bool_decide ("self" ∈ kws) then
    Raise TypeError
  else if var_kw s then Ok tt
  else if forallb (fun k => bool_decide (k ∈ params s)) kws then Ok tt
  else Raise TypeError.

(** A platform handler object: the signature of its [show_notification]
    and what its body does once the arguments are bound. *)
Record platform := mk_platform {
  show_sig : signature;
  show_body : dispatch_args -> outcome bool
}.

Definition call_show (p : platform) (a : dispatch_args) : outcome bool :=
  match bind_keywords (show_sig p) (keywords a) with
  | Raise e => Raise e
  | Ok _ => show_body p a
  end.

(** Python truthiness of a value. *)
Definition truthy (v : json) : bool :=
  match v with
  | JNull => false
  | JBool b => b
  | JNum z => negb (z =? 0)
  | JStr s => negb (String.eqb s "")
  | JArr l => negb (bool_decide (l = []))
  | JObj kv => negb (bool_decide (kv = []))
  end.

(** [NotificationManager.show_notification]: no handler gives False;
    the handler's call is inside [try ... except Exception]. *)
Definition manager_show (platform_handler : option platform)
    (notification_timeout : Z) (title message icon timeout actions : json)
    (callback : option handler_ref) (options : list (string * json))
    : bool :=
  match platform_handler with
  | None => false
  | Some p =>
      let a := mk_dispatch title message icon
                 (if truthy timeout then timeout else JNum notification_timeout)
                 (if truthy actions then actions else JArr [])
                 callback options in
      match call_show p a with
      | Ok r => r
      | Raise _ => false
      end
  end.

(** The server's call: [callback=None] (notification_manager.py line 95). *)
Definition server_show (platform_handler : option platform)
    (notification_timeout : Z) (args : Server.notify_args) : bool :=
  manager_show platform_handler notification_timeout
    (Server.a_title args) (Server.a_message args) (Server.a_icon args)
    (Server.a_timeout args) (Server.a_actions args) None
    (Server.a_options args).

(** [ToastNotifyLinuxPlatform.show_notification(self, title, message,
    icon=None, timeout=5, actions=None)]: no [on_action], no [**kwargs]. *)
Definition linux_sig : signature :=
  mk_sig ["self"; "title"; "message"; "icon"; "timeout"; "actions"] false.

(** The subprocess [notify-send ...]: its exit code, or an exception
    from [subprocess.run]. *)
Definition linux_body (notify_send_available : bool) (run : outcome Z)
    (_ : dispatch_args) : outcome bool :=
  if negb notify_send_available then Ok false
  else
    match run with
    | Ok returncode => Ok (returncode =? 0)
    | Raise _ => Ok false
    end.

Definition linux_platform (notify_send_available : bool) (run : outcome Z)
    : platform :=
  mk_platform linux_sig (linux_body notify_send_available run).

(** The Windows and macOS [show_notification] take [on_action] and
    [**kwargs]. *)
Definition kwargs_sig : signature :=
  mk_sig ["self"; "title"; "message"; "icon"; "timeout"; "actions";
          "on_action"] true.

End Platform.

(* ------------------------------------------------------------------ *)
(** ** The client (client.py) *)

Module Client.

Import Platform.

(** What one [urllib.request.urlopen(req)] does: a response with a
    2xx status and its body bytes, [URLError] (refused connection, and
    [HTTPError] for every non-2xx status), [socket.timeout], or another
    exception. *)
Inductive transport :=
| TResp (code : Z) (body : list Z)
| TURLError
| TTimeout
| TRaise (e : exc).

(** Observable events of one call. *)
Inductive event :=
| EvHttpAttempt (body : list Z)                  (* one urlopen of POST /notify *)
| EvServerDispatch (args : Server.notify_args)   (* show_notification in do_POST *)
| EvClientDispatch (args : dispatch_args).        (* in-process fallback call *)

(** The arguments of [ToastNotifyClient.send_notification]. *)
Record send_req := mk_send {
  s_title : json;
  s_message : json;
  s_icon : json;                                   (* JNull: None *)
  s_timeout : json;
  s_actions : option (list json);                  (* None: None *)
  s_platform_options : option (list (string * list (string * json)));
  s_on_action : option handler_ref
}.

Definition options_json (po : list (string * list (string * json))) : json :=
  JObj (map (fun p => (p.1, JObj p.2)) po).

Definition actions_or_empty (a : option (list json)) : list json :=
  match a with Some l => l | None => [] end.

(** [if on_action and actions] *)
Definition skips_http (r : send_req) : bool :=
  match s_on_action r, s_actions r with
  | Some _, Some (_ :: _) => true
  | _, _ => false
  end.

Definition po_truthy (po : option (list (string * list (string * json)))) : bool :=
  match po with Some (_ :: _) => true | _ => false end.

(** The request [data] dict, in insertion order. *)
Definition request_data (r : send_req) : json :=
  JObj ([("title", s_title r); ("message", s_message r);
         ("timeout", s_timeout r);
         ("actions", JArr (actions_or_empty (s_actions r)))]
        ++ (if truthy (s_icon r) then [("icon", s_icon r)] else [])
        ++ (match s_platform_options r with
            | Some ((_ :: _) as po) => [("platform_options", options_json po)]
            | _ => []
            end)).

Definition max_retries : nat := 1.

Section Send.

(** [json.dumps(...).encode('utf-8')] and [json.loads] of a decoded str. *)
Variable json_dumps : json -> list Z.
Variable json_loads : list Z -> outcome json.
(** [platform.system().lower()] in the client's process. *)
Variable system : string.
(** The [attempt]-th [urlopen] with the given body, and the events it
    causes on the other side. *)
Variable urlopen : nat -> list Z -> transport * list event.
(** [self.platform_handler]: the shared handler or a fresh one, [None]
    when neither exists. *)
Variable platform_handler : option platform.

(** [response_data.get("status") == "success"] for a 200 response. *)
Definition read_status (rbody : list Z) : outcome bool :=
  match utf8_decode rbody with
  | None => Raise UnicodeDecodeError
  | Some text =>
      match json_loads text with
      | Raise e => Raise e
      | Ok (JObj kv) =>
          Ok (match assoc_get "status" kv with
              | Some (JStr s) => String.eqb s "success"
              | _ => false
              end)
      | Ok _ => Raise AttributeError
      end
  end.

(** The retry loop of lines 150-163; [fuel] bounds the iterations of
    [while retry_count <= max_retries] (two suffice). *)
Fixpoint http_loop (fuel retry_count : nat) (body : list Z)
    : outcome bool * list event :=
  match fuel with
  | O => (Ok false, [])
  | S fuel' =>
      if Nat.leb retry_count max_retries then
        let (t, evs) := urlopen retry_count body in
        let evs := EvHttpAttempt body :: evs in
        match t with
        | TResp code rbody =>
            if code =? 200 then (read_status rbody, evs) else (Ok false, evs)
        | TURLError | TTimeout =>
            if Nat.ltb max_retries (S retry_count) then (Ok false, evs)
            else
              let (o, evs') := http_loop fuel' (S retry_count) body in
              (o, app evs evs')
        | TRaise e => (Raise e, evs)
        end
      else (Ok false, [])
  end.

(** [_try_http_notification]: the outer [except Exception] returns False. *)
Definition try_http_notification (r : send_req) : bool * list event :=
  if skips_http r then (false, [])
  else
    let body := json_dumps (request_data r) in
    match http_loop 2 0 body with
    | (Ok b, evs) => (b, evs)
    | (Raise _, evs) => (false, evs)
    end.

(** [specific_options] of the fallback (lines 82-86). *)
Definition client_specific (po : option (list (string * list (string * json))))
    : list (string * json) :=
  match po with
  | Some ((_ :: _) as l) =>
      match assoc_get system l with Some so => so | None => [] end
  | _ => []
  end.

Definition fallback_args (r : send_req) : dispatch_args :=
  mk_dispatch (s_title r) (s_message r) (s_icon r) (s_timeout r)
    (JArr (actions_or_empty (s_actions r))) (s_on_action r)
    (client_specific (s_platform_options r)).

(** [ToastNotifyClient.send_notification]: the result and the events. *)
Definition send_notification (r : send_req) : bool * list event :=
  let (ok, evs) := try_http_notification r in
  if ok then (true, evs)
  else
    match platform_handler with
    | None => (false, evs)
    | Some p =>
        let a := fallback_args r in
        (match call_show p a with Ok b => b | Raise _ => false end,
         app evs [EvClientDispatch a])
    end.

End Send.

(** Plugging the server of this process in as the other end of
    [urlopen]: [do_POST] on the body; [send_error] and non-2xx answers
    reach the client as [HTTPError]. *)
Definition server_urlopen (json_dumps : json -> list Z)
    (json_loads : list Z -> outcome json) (server_system : string)
    (server_handler : option platform) (notification_timeout : Z)
    (_ : nat) (body : list Z) : transport * list event :=
  let req := Server.mk_request "/notify" (Server.IntHeader (Z.of_nat (length body))) body in
  let (resp, calls) :=
    Server.do_POST json_loads server_system notification_timeout
      (server_show server_handler notification_timeout) req in
  (match resp with
   | Server.SendError _ => TURLError
   | Server.SendJson code b =>
       if (200 <=? code) && (code <? 300) then TResp code (json_dumps b)
       else TURLError
   end, map EvServerDispatch calls).

End Client.

(* ------------------------------------------------------------------ *)
(** ** Module-level [send_notification] and [_send_async] (client.py) *)

Module Wrapper.

Import Platform Client.

(** [d[key] = value] on a dict kept in insertion order. *)
Fixpoint assoc_set {A} (k : string) (v : A) (kv : list (string * A))
    : list (string * A) :=
  match kv with
  | [] => [(k, v)]
  | (k', v') :: rest =>
      if String.eqb k k' then (k', v) :: rest else (k', v') :: assoc_set k v rest
  end.

(** A completion callback [callback(result)]: returns or raises. *)
Definition completion := bool -> outcome unit.

(** The port sources of lines 263-281: the [AYON_TOASTNOTIFY_PORT]
    value ([None]: unset or empty; otherwise [int(env_port)]), the
    transient socket, and the value [random.randint(10000, 65000)]
    would return. *)
Record port_env := mk_port_env {
  env_port : option Server.header_int;
  sock_bind : outcome Z;
  randint_value : Z
}.

Definition resolve_port (port : option Z) (pe : port_env) : Z :=
  match port with
  | Some p => p
  | None =>
      match env_port pe with
      | Some (Server.IntHeader n) => n
      | Some Server.BadHeader => randint_value pe     (* int() raised *)
      | Some Server.NoHeader | None =>
          match sock_bind pe with
          | Ok p => p
          | Raise _ => randint_value pe
          end
      end
  end.

(** The arguments the worker thread receives. *)
Record job := mk_job {
  j_port : Z;
  j_req : send_req;
  j_callback : option completion
}.

Record call := mk_call {
  c_title : json;
  c_message : json;
  c_icon : json;
  c_timeout : json;
  c_actions : option (list json);
  c_platform_options : option (list (string * list (string * json)));
  c_port : option Z;
  c_async_send : bool;
  c_callback : option completion;
  c_on_action : option handler_ref;
  c_additional : list (string * json)     (* **additional_params *)
}.

Section Wrap.

Variable json_dumps : json -> list Z.
Variable json_loads : list Z -> outcome json.
Variable system : string.
(** [urlopen] for a client on the given port. *)
Variable urlopen : Z -> nat -> list Z -> transport * list event.
Variable platform_handler : option platform.

(** Lines 252-261: [platform_options] with the additional parameters
    merged into the entry of the current platform. *)
Definition merged_options (c : call) : list (string * list (string * json)) :=
  let po := match c_platform_options c with
            | Some ((_ :: _) as l) => l
            | _ => []
            end in
  let po := match assoc_get system po with
            | Some _ => po
            | None => app po [(system, [])]
            end in
  fold_left (fun po kv =>
               let cur := match assoc_get system po with Some d => d | None => [] end in
               assoc_set system (assoc_set kv.1 kv.2 cur) po)
            (c_additional c) po.

Definition call_req (c : call) : send_req :=
  mk_send (c_title c) (c_message c) (c_icon c) (c_timeout c) (c_actions c)
    (Some (merged_options c)) (c_on_action c).

(** [_send_async]: the completion callback's arguments, in order, and
    whether the worker ends by raising. *)
Definition send_async (j : job) : list bool * outcome unit :=
  let result :=
    fst (Client.send_notification json_dumps json_loads system (urlopen (j_port j))
           platform_handler (j_req j)) in
  match j_callback j with
  | None => ([], Ok tt)
  | Some cb =>
      match cb result with
      | Ok _ => ([result], Ok tt)
      | Raise _ =>                         (* except: callback(False) *)
          match cb false with
          | Ok _ => ([result; false], Ok tt)
          | Raise e => ([result; false], Raise e)
          end
      end
  end.

(** [send_notification(...)]: the return value and the worker threads
    started. *)
Definition send_notification (pe : port_env) (c : call) : bool * list job :=
  let port := resolve_port (c_port c) pe in
  let r := call_req c in
  if c_async_send c then (true, [mk_job port r (c_callback c)])
  else (fst (Client.send_notification json_dumps json_loads system (urlopen port)
               platform_handler r), []).

End Wrap.

End Wrapper.

(* ------------------------------------------------------------------ *)
(** ** macOS: [ToastNotifyMacOSPlatform._process_alerter_response] *)

Module MacOS.

(** [on_action(arg)]: returns or raises. *)
Definition action_handler := string -> outcome unit.

(** The text read is a sequence of code points below 256, one Rocq
    character each. Characters [str.strip()] removes: those of them
    [str.isspace] accepts (\t..\r, \x1c..\x1f, space, \x85, \xa0). *)
Definition is_space (c : Ascii.ascii) : bool :=
  let n := Ascii.nat_of_ascii c in
  (Nat.leb 9 n && Nat.leb n 13) || (Nat.leb 28 n && Nat.leb n 32) ||
  Nat.eqb n 133 || Nat.eqb n 160.

Fixpoint lstrip (s : string) : string :=
  match s with
  | String c rest => if is_space c then lstrip rest else s
  | EmptyString => EmptyString
  end.

Definition rstrip (s : string) : string :=
  String.string_of_list_ascii (rev (String.list_ascii_of_string
    (lstrip (String.string_of_list_ascii (rev (String.list_ascii_of_string s)))))).

Definition strip (s : string) : string := rstrip (lstrip s).

(** Lines 324-339 on the stripped response: the arguments [on_action]
    is called with. *)
Definition dispatch_response (response : string) (on_action : option action_handler)
    : list string :=
  let fire arg := match on_action with Some _ => [arg] | None => [] end in
  if String.eqb response "@CLOSED" || String.eqb response "@TIMEOUT" then []
  else if String.eqb response "@CONTENTCLICKED" then fire "default"
  else if String.prefix "@ACTIONCLICKED" response then fire response
  else fire response.

(** The wait loop of lines 301-306 and the check of line 308:
    [exists_at i] is the [i]-th call of [os.path.exists(response_path)],
    [cleanup_at i] the cancellation flag in the [i]-th iteration.
    [Some true]: the file is there to read. *)
Fixpoint wait_for_file (max_wait i : nat) (exists_at cleanup_at : nat -> bool)
    : option bool :=
  match max_wait with
  | O => Some (exists_at i)                    (* max_wait == 0: line 308 *)
  | S m =>
      if exists_at i then Some (exists_at (S i))   (* loop left: line 308 *)
      else if cleanup_at i then None           (* return *)
      else wait_for_file m (S i) exists_at cleanup_at
  end.

(** [_process_alerter_response]: the calls of [on_action]. [contents]
    is what [f.read()] returns or raises; a raising handler ends the
    thread through the [except Exception] after its call. *)
Definition process_alerter_response (exists_at cleanup_at : nat -> bool)
    (contents : outcome string) (on_action : option action_handler)
    : list string :=
  match wait_for_file 60 0 exists_at cleanup_at with
  | Some true =>
      match contents with
      | Ok text => dispatch_response (strip text) on_action
      | Raise _ => []
      end
  | _ => []
  end.

(** A handler that accepts every call. *)
Definition accept_all : action_handler := fun _ => Ok tt.

End MacOS.

(* ------------------------------------------------------------------ *)
(** ** GET routes (notification_manager.py, [ToastNotifyHandler.do_GET]) *)

Module Routes.

(** [s] without the prefix [p], when [s] starts with [p]. *)
Fixpoint drop_prefix (p s : string) : option string :=
  match p, s with
  | EmptyString, _ => Some s
  | String c p', String d s' =>
      if Ascii.eqb c d then drop_prefix p' s' else None
  | String _ _, EmptyString => None
  end.

(** The longest prefix without ['/'], and what follows it. *)
Fixpoint split_slash (s : string) : string * string :=
  match s with
  | EmptyString => (EmptyString, EmptyString)
  | String c rest =>
      if Ascii.eqb c (Ascii.ascii_of_nat 47) then   (* '/' *) (EmptyString, s)
      else let (a, b) := split_slash rest in (String c a, b)
  end.

Definition has_slash (s : string) : bool := substring_in "/" s.

(** [re.match(r'^/action/([^/]+)/([^/]+)$', path)]: the two groups.
    [[^/]+] is greedy and also takes a final newline, so [$] matches
    at the very end. *)
Definition parse_action_path (path : string) : option (string * string) :=
  match drop_prefix "/action/" path with
  | None => None
  | Some rest =>
      let (nid, tail) := split_slash rest in
      match tail with
      | String _ aid =>                      (* tail starts with '/' *)
          if String.eqb nid "" || String.eqb aid "" || has_slash aid
          then None else Some (nid, aid)
      | EmptyString => None
      end
  end.

Definition health_body : json :=
  JObj [("status", JStr "ok"); ("service", JStr "toastnotify")].

(** [do_GET] on [urlparse(self.path).path], with the registry it
    consults. *)
Definition do_GET (path : string) (st : Registry.state)
    : outcome (Server.response * Registry.state) :=
  match parse_action_path path with
  | Some (nid, aid) =>
      match Registry.handle_action_callback nid aid st with
      | Ok (success, st') => Ok (Server.SendJson 200 (Server.status_body success), st')
      | Raise e => Raise e
      end
  | None =>
      if String.eqb path "/health" then Ok (Server.SendJson 200 health_body, st)
      else Ok (Server.SendError 404, st)
  end.

End Routes.

(* ------------------------------------------------------------------ *)
(** ** [ToastNotifyClient.check_service_health] (client.py, lines 169-193) *)

Module Health.

Import Client.

(** One [urlopen] of GET /health; every exception gives False. *)
Definition check_service_health (json_loads : list Z -> outcome json)
    (t : transport) : bool :=
  match t with
  | TResp code rbody =>
      if code =? 200 then
        match utf8_decode rbody with
        | None => false
        | Some text =>
            match json_loads text with
            | Ok (JObj kv) =>
                match assoc_get "status" kv with
                | Some (JStr s) => String.eqb s "ok"
                | _ => false
                end
            | _ => false
            end
        end
      else false
  | _ => false
  end.

(** This process's server as the other end of a GET. *)
Definition server_get (json_dumps : json -> list Z) (path : string)
    (st : Registry.state) : transport :=
  match Routes.do_GET path st with
  | Ok (Server.SendJson code b, _) =>
      if (200 <=? code) && (code <? 300) then TResp code (json_dumps b) else TURLError
  | _ => TURLError
  end.

End Health.

(* ------------------------------------------------------------------ *)
(** ** [NotificationManager] lifecycle (notification_manager.py, lines 160-266) *)

Module Lifecycle.

(** The fields [running], the number of worker threads started, and
    whether [self.server] is set. *)
Record manager := mk_manager {
  running : bool;
  threads_started : nat;
  has_server : bool
}.

(** [__init__]: [settings.get("_port") or get_toast_notify_port(settings)]. *)
Definition init_port (settings : list (string * json)) (bind : outcome Z)
    (words : list Z) : option json :=
  let p := get_default settings "_port" JNull in
  if Platform.truthy p then Some p
  else Port.get_toast_notify_port settings bind words.

(** [notification_timeout = settings.get("notification_timeout", 5)] *)
Definition init_timeout (settings : list (string * json)) : json :=
  get_default settings "notification_timeout" (JNum 5).

Definition initial : manager := mk_manager false 0 false.

(** [start]: a no-op while running; otherwise set the flag and start
    one worker thread. *)
Definition start (m : manager) : manager :=
  if running m then m
  else mk_manager true (S (threads_started m)) (has_server m).

(** The worker's first step in [_run_server]: creating the server
    either succeeds or raises, which clears [running]. *)
Definition run_server_bind (bind : outcome unit) (m : manager) : manager :=
  match bind with
  | Ok _ => mk_manager (running m) (threads_started m) true
  | Raise _ => mk_manager false (threads_started m) (has_server m)
  end.

(** [stop]: clear the flag; with a server set, [connect] is the outcome
    of [socket.create_connection]. If it raises, the exception is logged
    and the shutdown skipped; if it succeeds, [self.server.shutdown()]
    waits for [serve_forever] to finish, which this server never runs
    (its loop calls [handle_request]), so [stop] does not return: [None].
    The join of the thread is bounded. *)
Definition stop (connect : outcome unit) (m : manager) : option manager :=
  let m' := mk_manager false (threads_started m) (has_server m) in
  if has_server m then
    match connect with
    | Ok _ => None                         (* blocked in shutdown() *)
    | Raise _ => Some m'
    end
  else Some m'.

End Lifecycle.

(* ------------------------------------------------------------------ *)
(** ** Observations over event logs *)

Module Observe.

Import Client.

Definition is_attempt (e : event) : bool :=
  match e with EvHttpAttempt _ => true | _ => false end.

Definition is_client_dispatch (e : event) : bool :=
  match e with EvClientDispatch _ => true | _ => false end.

(** Number of [urlopen] calls of POST /notify in a log. *)
Definition attempts (evs : list event) : nat := length (List.filter is_attempt evs).

End Observe.

(* ------------------------------------------------------------------ *)
(** ** A concrete scenario: one Send on Linux with the server running *)

Module Scenario.

Import Platform Client.

Definition req0 : send_req :=
  mk_send (JStr "T") (JStr "M") JNull (JNum 5) (Some []) None None.

(** A stand-in for [json.dumps]/[json.loads] on the two documents of
    the exchange: the request ([49]) and the server's answer ([50]). *)
Definition dumps0 (j : json) : list Z :=
  match j with JObj [(_, JStr _)] => [50] | _ => [49] end.

Definition loads0 (t : list Z) : outcome json :=
  match t with
  | [x] => if x =? 50 then Ok (Server.status_body false) else Ok (request_data req0)
  | _ => Raise JSONDecodeError
  end.

(** The server's handler: Linux, [notify-send] present, exit code 0. *)
Definition server_handler0 : option platform := Some (linux_platform true (Ok 0)).

(** The client's fallback handler: accepts the call and succeeds. *)
Definition client_handler0 : platform := mk_platform kwargs_sig (fun _ => Ok true).

Definition args0 : Server.notify_args :=
  Server.mk_args (JStr "T") (JStr "M") JNull (JNum 5) (JArr []) [].

End Scenario.

(* ================================================================== *)
(** * Properties *)

Module Props.

Import Registry.

(** Registry: a handler that returns is removed, so a second
    resolution of its id finds nothing and calls nothing. *)
Lemma resolve_twice_returning_handler (st : state) (id aid : string) (cb : callback) :
  action_callbacks st !! id = Some cb -> is_ok (cb aid) = true ->
  resolve_twice id aid st =
    Ok (true, false,
        mk_state (delete id (action_callbacks st)) (invoked st ++ [(id, aid)])).
Proof.
  intros Hcb Hok. unfold resolve_twice, handle_action_callback. rewrite Hcb.
  destruct (cb aid) as [u|e]; [|discriminate]. simpl.
  rewrite lookup_delete_eq. reflexivity.
Qed.

(** C1 (code_bug evidence): a handler that raises stays registered, so
    resolving its id twice calls it twice. *)
Lemma registry_raising_handler_fires_twice :
  resolve_twice "n1" "yes"
    (register_action_callback "n1" raising_callback empty_state) =
  Ok (false, false,
      mk_state {[ "n1" := raising_callback ]} [("n1", "yes"); ("n1", "yes")]).
Proof. reflexivity. Qed.

(** C2 (counterexample): a registered handler that raises makes
    [handle_action_callback] return False, not True. *)
Lemma handle_action_callback_raising_returns_false :
  ~ (forall (st : state) (id aid : string),
       is_Some (action_callbacks st !! id) ->
       exists st', handle_action_callback id aid st = Ok (true, st')).
Proof.
  intros H.
  destruct (H (register_action_callback "n1" raising_callback empty_state) "n1" "yes")
    as [st' Hst]; [eexists; reflexivity|].
  discriminate Hst.
Qed.

(** C2 (amended): [handle_action_callback] never raises; it returns
    True exactly when a handler is registered under the id and returned
    without raising; a handler's exception is caught and gives False;
    an unregistered id gives False and calls nothing. *)
Lemma handle_action_callback_result (st : state) (id aid : string) :
  (exists r st', handle_action_callback id aid st = Ok (r, st')) /\
  (forall r st', handle_action_callback id aid st = Ok (r, st') ->
     (r = true <-> exists cb, action_callbacks st !! id = Some cb /\
                              is_ok (cb aid) = true)) /\
  (action_callbacks st !! id = None ->
     handle_action_callback id aid st = Ok (false, st)).
Proof.
  unfold handle_action_callback.
  destruct (action_callbacks st !! id) as [cb|] eqn:Hl.
  - destruct (cb aid) as [u|e] eqn:Hc; simpl.
    + split; [eauto|]. split; [|discriminate].
      intros r st' Heq. injection Heq as <- _. split; [|reflexivity].
      intros _. exists cb. rewrite Hc. auto.
    + split; [eauto|]. split; [|discriminate].
      intros r st' Heq. injection Heq as <- _. split; [discriminate|].
      intros (cb' & Hcb' & Hok). injection Hcb' as <-. rewrite Hc in Hok.
      discriminate.
  - split; [eauto|]. split; [|reflexivity].
    intros r st' Heq. injection Heq as <- _. split; [discriminate|].
    intros (cb' & Hcb' & _). discriminate.
Qed.

(** Linux: every call made with the keyword [on_action] fails to bind. *)
Lemma linux_call_show_type_error (avail : bool) (run : outcome Z)
    (a : Platform.dispatch_args) :
  Platform.call_show (Platform.linux_platform avail run) a = Raise TypeError.
Proof.
  unfold Platform.call_show, Platform.bind_keywords. simpl Platform.show_sig.
  destruct (_ || _); [reflexivity|]. simpl Platform.var_kw.
  unfold Platform.keywords. rewrite forallb_app.
  replace (forallb _ ["title"; "message"; "icon"; "timeout"; "actions"; "on_action"])
    with false by reflexivity.
  reflexivity.
Qed.

(** C5 (code_bug evidence): with the Linux handler,
    [NotificationManager.show_notification] returns False whatever the
    exit code of [notify-send] (here any [run], [Ok 0] included) and
    whether or not a callback is given. *)
Lemma linux_manager_show_always_false (avail : bool) (run : outcome Z)
    (nt : Z) (title message icon timeout actions : json)
    (callback : option Platform.handler_ref) (options : list (string * json)) :
  Platform.manager_show (Some (Platform.linux_platform avail run)) nt
    title message icon timeout actions callback options = false.
Proof.
  unfold Platform.manager_show. rewrite linux_call_show_type_error. reflexivity.
Qed.

(** [_randbelow] yields a value in [0, n). *)
Lemma randbelow_loop_range (n k : Z) (words : list Z) (r : Z) (rest : list Z) :
  Port.randbelow_loop n k words = Some (r, rest) -> 0 <= r < n.
Proof.
  induction words as [|w ws IH]; simpl; [discriminate|].
  destruct (Port.getrandbits k w <? n) eqn:Hlt.
  - intros Heq. injection Heq as <- _. apply Z.ltb_lt in Hlt. split; [|exact Hlt].
    unfold Port.getrandbits. apply Z.shiftr_nonneg.
    apply Z.mod_pos_bound. lia.
  - exact IH.
Qed.

(** C7 (counterexample): with binding failed, [randint(10000, 65000)]
    can return 65000 (the generator word [55000 * 2^16]). *)
Lemma port_fallback_can_be_65000 :
  ~ (forall (settings : list (string * json)) (e : exc) (words : list Z) (z : Z),
       get_default settings "use_fixed_port" (JBool false) <> JBool true ->
       Port.get_toast_notify_port settings (Raise e) words = Some (JNum z) ->
       10000 <= z < 65000).
Proof.
  intros H.
  assert (Hr : 10000 <= 65000 < 65000).
  { apply (H [] OSError [55000 * 65536]); [discriminate|reflexivity]. }
  lia.
Qed.

(** C7 (amended): outside fixed-port mode, when binding the transient
    socket fails, the port is an integer in [10000, 65000], both ends
    included. *)
Lemma port_fallback_range (settings : list (string * json)) (e : exc)
    (words : list Z) (p : json) :
  get_default settings "use_fixed_port" (JBool false) <> JBool true ->
  Port.get_toast_notify_port settings (Raise e) words = Some p ->
  exists z, p = JNum z /\ 10000 <= z <= 65000.
Proof.
  intros Hfixed. unfold Port.get_toast_notify_port.
  destruct (get_default settings "use_fixed_port" (JBool false)) as [| [|] | | | |];
    try congruence;
  unfold Port.randint, Port.randbelow;
  destruct (Port.randbelow_loop _ _ words) as [[r rest]|] eqn:Hl; simpl;
    try discriminate;
  intros Heq; injection Heq as <-; exists (10000 + r); split; try reflexivity;
  apply randbelow_loop_range in Hl; lia.
Qed.

Lemma port_fallback_range_witness :
  get_default [] "use_fixed_port" (JBool false) <> JBool true /\
  Port.get_toast_notify_port [] (Raise OSError) [55000 * 65536] = Some (JNum 65000) /\
  exists z, JNum 65000 = JNum z /\ 10000 <= z <= 65000.
Proof.
  split; [discriminate|]. split; [reflexivity|].
  apply (port_fallback_range [] OSError [55000 * 65536] (JNum 65000));
    [discriminate | reflexivity].
Defined.

(** macOS: the sentinels other than [@ACTIONCLICKED] behave as
    documented when the file is there at the first check. *)
Lemma alerter_sentinels (cleanup_at : nat -> bool) (h : MacOS.action_handler) :
  MacOS.process_alerter_response (fun _ => true) cleanup_at (Ok "@CLOSED") (Some h) = [] /\
  MacOS.process_alerter_response (fun _ => true) cleanup_at (Ok "@TIMEOUT") (Some h) = [] /\
  MacOS.process_alerter_response (fun _ => true) cleanup_at (Ok "@CONTENTCLICKED") (Some h)
    = ["default"].
Proof. repeat split; reflexivity. Qed.

(** C4 (code_bug evidence): for the response [@ACTIONCLICKED:yes] the
    handler is called with the whole string, not with the id [yes]. *)
Lemma alerter_actionclicked_passes_raw_response :
  MacOS.process_alerter_response (fun _ => true) (fun _ => false)
    (Ok "@ACTIONCLICKED:yes") (Some MacOS.accept_all) = ["@ACTIONCLICKED:yes"].
Proof. reflexivity. Qed.




(** The HTTP attempt is skipped exactly when [on_action and actions]. *)
Lemma try_http_skipped (dumps : json -> list Z) (loads : list Z -> outcome json)
    (urlopen : nat -> list Z -> Client.transport * list Client.event)
    (r : Client.send_req) :
  Client.skips_http r = true ->
  Client.try_http_notification dumps loads urlopen r = (false, []).
Proof. intros H. unfold Client.try_http_notification. rewrite H. reflexivity. Qed.

(** C3 (counterexample): a handler with an empty actions list does not
    skip HTTP: the POST is attempted (twice, the server being down). *)
Lemma send_handler_without_actions_uses_http :
  ~ (forall (dumps : json -> list Z) (loads : list Z -> outcome json) (sys : string)
            (urlopen : nat -> list Z -> Client.transport * list Client.event)
            (ph : option Platform.platform) (r : Client.send_req) (h : Platform.handler_ref)
            (body : list Z),
       Client.s_on_action r = Some h ->
       ~ In (Client.EvHttpAttempt body)
           (snd (Client.send_notification dumps loads sys urlopen ph r))).
Proof.
  intros H.
  apply (H (fun _ => [123; 125]) (fun _ => Raise JSONDecodeError) "linux" (fun _ _ => (Client.TURLError, []))
           None (Client.mk_send (JStr "T") (JStr "M") JNull (JNum 5) (Some []) None (Some 0%nat))
           0%nat [123; 125] eq_refl).
  simpl. left. reflexivity.
Qed.

(** The retry loop, when it runs, starts with a POST. *)
Lemma http_loop_first_attempt (loads : list Z -> outcome json)
    (urlopen : nat -> list Z -> Client.transport * list Client.event)
    (fuel : nat) (body : list Z) :
  exists o rest, Client.http_loop loads urlopen (S fuel) 0 body =
                 (o, Client.EvHttpAttempt body :: rest).
Proof.
  cbn [Client.http_loop Nat.leb Client.max_retries].
  destruct (urlopen 0%nat body) as [t evs].
  destruct t as [code rbody| | |e]; simpl.
  - destruct (code =? 200); eauto.
  - destruct (Client.http_loop loads urlopen fuel 1 body) as [o evs']. eauto.
  - destruct (Client.http_loop loads urlopen fuel 1 body) as [o evs']. eauto.
  - eauto.
Qed.

(** C3 (amended): a Send with a handler and a non-empty actions list
    never attempts HTTP; the only event is the in-process dispatch (when
    a platform handler exists), which receives the handler and the
    actions. With a handler and an empty or absent actions list, the
    first thing Send does is a POST over HTTP. *)
Lemma send_handler_with_actions_skips_http (dumps : json -> list Z)
    (loads : list Z -> outcome json) (sys : string)
    (urlopen : nat -> list Z -> Client.transport * list Client.event)
    (ph : option Platform.platform) (r : Client.send_req) (h : Platform.handler_ref) :
  Client.s_on_action r = Some h ->
  (forall (a : json) (l : list json),
     Client.s_actions r = Some (a :: l) ->
     Client.send_notification dumps loads sys urlopen ph r =
       match ph with
       | None => (false, [])
       | Some p =>
           (match Platform.call_show p (Client.fallback_args sys r) with
            | Ok b => b | Raise _ => false end,
            [Client.EvClientDispatch (Client.fallback_args sys r)])
       end /\
     Platform.d_on_action (Client.fallback_args sys r) = Some h /\
     Platform.d_actions (Client.fallback_args sys r) = JArr (a :: l)) /\
  (Client.s_actions r = None \/ Client.s_actions r = Some [] ->
     exists rest, snd (Client.send_notification dumps loads sys urlopen ph r) =
                  Client.EvHttpAttempt (dumps (Client.request_data r)) :: rest).
Proof.
  intros Hh. split.
  - intros a l Ha.
    assert (Hs : Client.skips_http r = true).
    { unfold Client.skips_http. rewrite Hh, Ha. reflexivity. }
    unfold Client.send_notification. rewrite (try_http_skipped _ _ _ _ Hs).
    unfold Client.fallback_args, Client.actions_or_empty. simpl. rewrite Hh, Ha.
    split; [|split; reflexivity].
    destruct ph; reflexivity.
  - intros Ha.
    assert (Hs : Client.skips_http r = false).
    { unfold Client.skips_http. destruct Ha as [Ha|Ha]; rewrite Ha;
        destruct (Client.s_on_action r); reflexivity. }
    unfold Client.send_notification, Client.try_http_notification. rewrite Hs.
    destruct (http_loop_first_attempt loads urlopen 1 (dumps (Client.request_data r)))
      as (o & rest & Hl).
    rewrite Hl. destruct o as [ok|e]; [destruct ok|]; simpl;
      [|destruct ph..]; eexists; reflexivity.
Qed.

Lemma send_handler_with_actions_skips_http_witness :
  Client.send_notification (fun _ => []) (fun _ => Raise JSONDecodeError) "linux"
    (fun _ _ => (Client.TURLError, [])) None
    (Client.mk_send (JStr "T") (JStr "M") JNull (JNum 5)
       (Some [JObj [("id", JStr "yes"); ("text", JStr "Yes")]]) None (Some 0%nat))
  = (false, []).
Proof.
  destruct (send_handler_with_actions_skips_http (fun _ => [])
    (fun _ => Raise JSONDecodeError) "linux"
    (fun _ _ => (Client.TURLError, [])) None
    (Client.mk_send (JStr "T") (JStr "M") JNull (JNum 5)
       (Some [JObj [("id", JStr "yes"); ("text", JStr "Yes")]]) None (Some 0%nat))
    0%nat eq_refl) as [H _].
  exact (proj1 (H (JObj [("id", JStr "yes"); ("text", JStr "Yes")]) [] eq_refl)).
Defined.

(** The server reads back exactly the body the client posted. *)
Lemma read_body_full (body : list Z) :
  Server.read_body
    (Server.mk_request "/notify" (Server.IntHeader (Z.of_nat (length body))) body)
  = Ok body.
Proof.
  unfold Server.read_body, Server.rfile_read. simpl.
  replace (Z.of_nat (length body) <? 0) with false by (symmetry; apply Z.ltb_ge; lia).
  rewrite Nat2Z.id, firstn_all. reflexivity.
Qed.

(** C10 (counterexample): with no platform handler available, a failed
    HTTP attempt is followed by no in-process dispatch. *)
Lemma send_no_platform_handler_no_fallback :
  ~ (forall (dumps : json -> list Z) (loads : list Z -> outcome json) (sys : string)
            (urlopen : nat -> list Z -> Client.transport * list Client.event)
            (ph : option Platform.platform) (r : Client.send_req),
       Client.s_on_action r = None ->
       fst (Client.try_http_notification dumps loads urlopen r) = false ->
       exists a, In (Client.EvClientDispatch a)
                    (snd (Client.send_notification dumps loads sys urlopen ph r))).
Proof.
  intros H.
  destruct (H (fun _ => [123; 125]) (fun _ => Raise JSONDecodeError) "linux"
              (fun _ _ => (Client.TURLError, [])) None
              (Client.mk_send (JStr "T") (JStr "M") JNull (JNum 5) (Some []) None None)
              eq_refl eq_refl) as [a Ha].
  simpl in Ha. intuition discriminate.
Qed.

(** C10 (amended): without an action handler, every unsuccessful HTTP
    attempt is followed by the in-process dispatch when a platform
    handler is available; against this process's own server answering
    [200 {"status": "error"}] the dispatch is attempted twice, once by
    the server and once by the client. With no platform handler, an
    unsuccessful HTTP attempt is the end: the client dispatches nothing
    and Send returns False. *)
Lemma send_without_handler_falls_back (dumps : json -> list Z)
    (loads : list Z -> outcome json) (sys : string) (nt : Z)
    (server_ph : option Platform.platform) (p : Platform.platform)
    (r : Client.send_req) :
  Client.s_on_action r = None ->
  (forall urlopen : nat -> list Z -> Client.transport * list Client.event,
     fst (Client.try_http_notification dumps loads urlopen r) = false ->
     Client.send_notification dumps loads sys urlopen (Some p) r =
       (match Platform.call_show p (Client.fallback_args sys r) with
        | Ok b => b | Raise _ => false end,
        app (snd (Client.try_http_notification dumps loads urlopen r))
            [Client.EvClientDispatch (Client.fallback_args sys r)])) /\
  (forall text rtext args,
     utf8_decode (dumps (Client.request_data r)) = Some text ->
     loads text = Ok (Client.request_data r) ->
     Server.extract_args sys nt (Client.request_data r) = Ok args ->
     Platform.server_show server_ph nt args = false ->
     utf8_decode (dumps (Server.status_body false)) = Some rtext ->
     loads rtext = Ok (Server.status_body false) ->
     Client.send_notification dumps loads sys
       (Client.server_urlopen dumps loads sys server_ph nt) (Some p) r =
       (match Platform.call_show p (Client.fallback_args sys r) with
        | Ok b => b | Raise _ => false end,
        [Client.EvHttpAttempt (dumps (Client.request_data r));
         Client.EvServerDispatch args;
         Client.EvClientDispatch (Client.fallback_args sys r)])) /\
  (forall urlopen : nat -> list Z -> Client.transport * list Client.event,
     fst (Client.try_http_notification dumps loads urlopen r) = false ->
     Client.send_notification dumps loads sys urlopen None r =
       (false, snd (Client.try_http_notification dumps loads urlopen r))).
Proof.
  intros Hnone.
  assert (Hs : Client.skips_http r = false).
  { unfold Client.skips_http. rewrite Hnone. reflexivity. }
  split; [|split].
  - intros urlopen Hfail. unfold Client.send_notification.
    destruct (Client.try_http_notification dumps loads urlopen r) as [ok evs].
    simpl in Hfail. subst ok. reflexivity.
  - intros text rtext args Htext Hload Hargs Hshow Hrtext Hrload.
    set (body := dumps (Client.request_data r)).
    assert (Hsrv : forall n,
      Client.server_urlopen dumps loads sys server_ph nt n body =
        (Client.TResp 200 (dumps (Server.status_body false)),
         [Client.EvServerDispatch args])).
    { intros n. unfold Client.server_urlopen, Server.do_POST. simpl.
      unfold Server.notify_body. rewrite read_body_full.
      unfold body. rewrite Htext, Hload, Hargs.
      unfold Server.status_body. rewrite Hshow. reflexivity. }
    assert (Hread : Client.read_status loads (dumps (Server.status_body false)) = Ok false).
    { unfold Client.read_status. rewrite Hrtext, Hrload. reflexivity. }
    unfold Client.send_notification, Client.try_http_notification.
    rewrite Hs. fold body. simpl. rewrite Hsrv. simpl. rewrite Hread.
    reflexivity.
  - intros urlopen Hfail. unfold Client.send_notification.
    destruct (Client.try_http_notification dumps loads urlopen r) as [ok evs].
    simpl in Hfail. subst ok. reflexivity.
Qed.

Lemma send_without_handler_falls_back_witness :
  Client.send_notification Scenario.dumps0 Scenario.loads0 "linux"
    (Client.server_urlopen Scenario.dumps0 Scenario.loads0 "linux"
       Scenario.server_handler0 5)
    (Some Scenario.client_handler0) Scenario.req0 =
  (true, [Client.EvHttpAttempt [49]; Client.EvServerDispatch Scenario.args0;
          Client.EvClientDispatch (Client.fallback_args "linux" Scenario.req0)]).
Proof.
  destruct (send_without_handler_falls_back Scenario.dumps0 Scenario.loads0 "linux" 5
              Scenario.server_handler0 Scenario.client_handler0 Scenario.req0 eq_refl)
    as (_ & H & _).
  exact (H [49] [50] Scenario.args0 eq_refl eq_refl eq_refl eq_refl eq_refl eq_refl).
Defined.

(** C9: with [async_send=True] the module-level [send_notification]
    returns True and starts one worker, whatever the delivery will give;
    the worker reports the delivery result to the completion callback
    (first call), and reports nothing without one. *)
Lemma wrapper_async_returns_true (dumps : json -> list Z) (loads : list Z -> outcome json)
    (sys : string) (urlopen : Z -> nat -> list Z -> Client.transport * list Client.event)
    (ph : option Platform.platform) (pe : Wrapper.port_env) (c : Wrapper.call) :
  Wrapper.c_async_send c = true ->
  Wrapper.send_notification dumps loads sys urlopen ph pe c =
    (true, [Wrapper.mk_job (Wrapper.resolve_port (Wrapper.c_port c) pe)
              (Wrapper.call_req sys c) (Wrapper.c_callback c)]) /\
  (forall cb, Wrapper.c_callback c = Some cb ->
     head (fst (Wrapper.send_async dumps loads sys urlopen ph
                  (Wrapper.mk_job (Wrapper.resolve_port (Wrapper.c_port c) pe)
                     (Wrapper.call_req sys c) (Wrapper.c_callback c)))) =
     Some (fst (Client.send_notification dumps loads sys
                  (urlopen (Wrapper.resolve_port (Wrapper.c_port c) pe)) ph
                  (Wrapper.call_req sys c)))) /\
  (Wrapper.c_callback c = None ->
     fst (Wrapper.send_async dumps loads sys urlopen ph
            (Wrapper.mk_job (Wrapper.resolve_port (Wrapper.c_port c) pe)
               (Wrapper.call_req sys c) (Wrapper.c_callback c))) = []).
Proof.
  intros Hasync. split; [|split].
  - unfold Wrapper.send_notification. rewrite Hasync. reflexivity.
  - intros cb Hcb. unfold Wrapper.send_async. simpl. rewrite Hcb.
    destruct (cb _); [reflexivity|]. destruct (cb false); reflexivity.
  - intros Hcb. unfold Wrapper.send_async. simpl. rewrite Hcb. reflexivity.
Qed.

Lemma wrapper_async_returns_true_witness :
  Wrapper.send_notification Scenario.dumps0 Scenario.loads0 "linux"
    (fun _ _ _ => (Client.TURLError, [])) None
    (Wrapper.mk_port_env None (Raise OSError) 12345)
    (Wrapper.mk_call (JStr "T") (JStr "M") JNull (JNum 5) None None None true
       None None [])
  = (true, [Wrapper.mk_job 12345
              (Wrapper.call_req "linux"
                 (Wrapper.mk_call (JStr "T") (JStr "M") JNull (JNum 5) None None None
                    true None None []))
              None]).
Proof.
  destruct (wrapper_async_returns_true Scenario.dumps0 Scenario.loads0 "linux"
              (fun _ _ _ => (Client.TURLError, [])) None
              (Wrapper.mk_port_env None (Raise OSError) 12345)
              (Wrapper.mk_call (JStr "T") (JStr "M") JNull (JNum 5) None None None true
                 None None []) eq_refl) as [H _].
  exact H.
Defined.

End Props.

(* ================================================================== *)
(** * Further properties of the modelled code *)

Module Extras.

Import Registry.

(** ** Path parsing helpers *)

Lemma prefix_empty (s : string) : String.prefix "" s = true.
Proof. destruct s; reflexivity. Qed.

Lemma has_slash_empty : Routes.has_slash "" = false.
Proof. reflexivity. Qed.

Lemma has_slash_cons (c : Ascii.ascii) (r : string) :
  Routes.has_slash (String c r) =
  Ascii.eqb c (Ascii.ascii_of_nat 47) || Routes.has_slash r.
Proof.
  unfold Routes.has_slash. cbn [substring_in String.prefix].
  destruct (Ascii.ascii_dec _ c) as [<-|Hne].
  - rewrite prefix_empty. reflexivity.
  - destruct (Ascii.eqb_spec c (Ascii.ascii_of_nat 47)) as [->|_];
      [exfalso; apply Hne; reflexivity|reflexivity].
Qed.

Lemma append_nil (s : string) : String.append "" s = s.
Proof. reflexivity. Qed.

Lemma append_cons (c : Ascii.ascii) (p s : string) :
  String.append (String c p) s = String c (String.append p s).
Proof. reflexivity. Qed.

Lemma drop_prefix_app (p s : string) :
  Routes.drop_prefix p (String.append p s) = Some s.
Proof.
  induction p as [|c p IH]; rewrite ?append_nil, ?append_cons;
    cbn [Routes.drop_prefix]; [reflexivity|].
  rewrite Ascii.eqb_refl. exact IH.
Qed.

Lemma drop_prefix_some (p s r : string) :
  Routes.drop_prefix p s = Some r -> s = String.append p r.
Proof.
  induction p as [|c p IH] in s |- *; destruct s as [|d s];
    rewrite ?append_nil, ?append_cons; cbn [Routes.drop_prefix]; intros H;
    try congruence.
  destruct (Ascii.eqb_spec c d) as [->|_]; [|discriminate].
  f_equal. apply IH. exact H.
Qed.

Lemma split_slash_app (a b : string) :
  Routes.has_slash a = false ->
  Routes.split_slash (String.append a (String (Ascii.ascii_of_nat 47) b)) =
    (a, String (Ascii.ascii_of_nat 47) b).
Proof.
  induction a as [|c a IH]; intros H; [reflexivity|].
  rewrite has_slash_cons in H. apply orb_false_iff in H as [H1 H2].
  rewrite append_cons. cbn [Routes.split_slash]. rewrite H1, IH by exact H2.
  reflexivity.
Qed.

Lemma split_slash_spec (s : string) :
  let '(a, b) := Routes.split_slash s in
  s = String.append a b /\ Routes.has_slash a = false /\
  match b with EmptyString => True | String c _ => c = Ascii.ascii_of_nat 47 end.
Proof.
  induction s as [|c s IH]; [repeat split|].
  cbn [Routes.split_slash].
  destruct (Ascii.eqb_spec c (Ascii.ascii_of_nat 47)) as [->|Hne].
  - repeat split.
  - destruct (Routes.split_slash s) as [a b]. destruct IH as (-> & Ha & Hb).
    split; [reflexivity|]. split; [|exact Hb].
    rewrite has_slash_cons, Ha. apply Ascii.eqb_neq in Hne. rewrite Hne. reflexivity.
Qed.

(** The URL of an action link. *)
Lemma parse_action_path_app (nid aid : string) :
  nid <> "" -> aid <> "" -> Routes.has_slash nid = false ->
  Routes.has_slash aid = false ->
  Routes.parse_action_path
    (String.append "/action/" (String.append nid (String.append "/" aid))) =
  Some (nid, aid).
Proof.
  intros H1 H2 H3 H4. unfold Routes.parse_action_path. rewrite drop_prefix_app.
  change (String.append "/" aid) with (String (Ascii.ascii_of_nat 47) aid).
  rewrite split_slash_app by exact H3.
  apply String.eqb_neq in H1, H2. rewrite H1, H2, H4. reflexivity.
Qed.

(** X1: [do_GET]'s action route accepts exactly the paths
    [/action/<nid>/<aid>] with two non-empty segments free of ['/'], and
    reads the two segments back. *)
Lemma parse_action_path_iff (path nid aid : string) :
  Routes.parse_action_path path = Some (nid, aid) <->
  path = String.append "/action/" (String.append nid (String.append "/" aid)) /\
  nid <> "" /\ aid <> "" /\ Routes.has_slash nid = false /\
  Routes.has_slash aid = false.
Proof.
  split.
  - unfold Routes.parse_action_path.
    destruct (Routes.drop_prefix "/action/" path) as [rest|] eqn:Hd; [|discriminate].
    pose proof (split_slash_spec rest) as Hs.
    destruct (Routes.split_slash rest) as [nid' tail].
    destruct Hs as (Hr & Hn & Ht).
    destruct tail as [|c aid']; [discriminate|].
    destruct (String.eqb nid' "" || String.eqb aid' "" || Routes.has_slash aid')
      eqn:E; [discriminate|].
    intros Heq. injection Heq as <- <-.
    apply orb_false_iff in E as [E H4]. apply orb_false_iff in E as [E1 E2].
    apply String.eqb_neq in E1, E2. subst c.
    apply drop_prefix_some in Hd. subst path rest.
    repeat split; assumption.
  - intros (-> & H1 & H2 & H3 & H4). apply parse_action_path_app; assumption.
Qed.

(** X2: GET on an action link of a registered handler that returns: the
    first request calls the handler once and answers
    [{"status": "success"}]; the handler is then gone, so the same
    request again answers [{"status": "error"}] and calls nothing. *)
Lemma do_GET_action_link_once (st : state) (nid aid : string) (cb : callback) (u : unit) :
  nid <> "" -> aid <> "" -> Routes.has_slash nid = false ->
  Routes.has_slash aid = false -> cb aid = Ok u ->
  let path := String.append "/action/" (String.append nid (String.append "/" aid)) in
  exists st2,
    Routes.do_GET path (register_action_callback nid cb st) =
      Ok (Server.SendJson 200 (JObj [("status", JStr "success")]), st2) /\
    Routes.do_GET path st2 =
      Ok (Server.SendJson 200 (JObj [("status", JStr "error")]), st2) /\
    invoked st2 = app (invoked st) [(nid, aid)] /\
    action_callbacks st2 = delete nid (action_callbacks st).
Proof.
  intros H1 H2 H3 H4 Hcb path. unfold path, Routes.do_GET.
  rewrite parse_action_path_app by assumption.
  unfold handle_action_callback, register_action_callback. simpl.
  rewrite lookup_insert_eq, Hcb. simpl.
  eexists. split; [reflexivity|]. cbn [action_callbacks].
  rewrite lookup_delete_eq. split; [reflexivity|].
  split; [reflexivity|]. simpl. apply delete_insert_eq.
Qed.

Lemma do_GET_action_link_once_witness :
  ("n1" <> "" /\ "yes" <> "" /\ Routes.has_slash "n1" = false /\
   Routes.has_slash "yes" = false /\ MacOS.accept_all "yes" = Ok tt) /\
  exists st2,
    Routes.do_GET "/action/n1/yes" (register_action_callback "n1" MacOS.accept_all empty_state) =
      Ok (Server.SendJson 200 (JObj [("status", JStr "success")]), st2) /\
    Routes.do_GET "/action/n1/yes" st2 =
      Ok (Server.SendJson 200 (JObj [("status", JStr "error")]), st2) /\
    invoked st2 = app (invoked empty_state) [("n1", "yes")] /\
    action_callbacks st2 = delete "n1" (action_callbacks empty_state).
Proof.
  split; [repeat split; discriminate || reflexivity|].
  apply (do_GET_action_link_once empty_state "n1" "yes" MacOS.accept_all tt);
    discriminate || reflexivity.
Defined.

(** X3: GET /health answers 200 with [{"status": "ok", "service":
    "toastnotify"}] and leaves the registry as it is; a client health
    check against it returns True when [json.dumps]/[json.loads] carry
    that document across. Any other path that is not an action link
    answers 404, leaves the registry as it is, and the health check
    returns False. *)
Lemma health_route_and_check (dumps : json -> list Z) (loads : list Z -> outcome json)
    (text : list Z) (st : state) :
  utf8_decode (dumps Routes.health_body) = Some text ->
  loads text = Ok Routes.health_body ->
  Routes.do_GET "/health" st = Ok (Server.SendJson 200 Routes.health_body, st) /\
  Health.check_service_health loads (Health.server_get dumps "/health" st) = true /\
  (forall path, Routes.parse_action_path path = None -> path <> "/health" ->
     Routes.do_GET path st = Ok (Server.SendError 404, st) /\
     Health.check_service_health loads (Health.server_get dumps path st) = false).
Proof.
  intros Hd Hl. split; [reflexivity|]. split.
  - unfold Health.server_get. simpl. rewrite Hd, Hl. reflexivity.
  - intros path Hp Hh. apply String.eqb_neq in Hh.
    unfold Health.server_get, Routes.do_GET. rewrite Hp, Hh. split; reflexivity.
Qed.

Lemma health_route_and_check_witness :
  (utf8_decode [49] = Some [49] /\ Ok Routes.health_body = Ok Routes.health_body) /\
  (Routes.do_GET "/health" empty_state =
     Ok (Server.SendJson 200 Routes.health_body, empty_state) /\
   Health.check_service_health (fun _ => Ok Routes.health_body)
     (Health.server_get (fun _ => [49]) "/health" empty_state) = true /\
   (forall path, Routes.parse_action_path path = None -> path <> "/health" ->
      Routes.do_GET path empty_state = Ok (Server.SendError 404, empty_state) /\
      Health.check_service_health (fun _ => Ok Routes.health_body)
        (Health.server_get (fun _ => [49]) path empty_state) = false)).
Proof.
  split; [split; reflexivity|].
  apply (health_route_and_check (fun _ => [49]) (fun _ => Ok Routes.health_body)
           [49] empty_state); reflexivity.
Defined.

(** X4: registering a handler under an id that already has one replaces
    it: resolving the id then behaves as if only the new handler had
    been registered, so the old one is never called. *)
Lemma register_replaces_handler (st : state) (nid aid : string) (cb1 cb2 : callback) :
  handle_action_callback nid aid
    (register_action_callback nid cb2 (register_action_callback nid cb1 st)) =
  handle_action_callback nid aid (register_action_callback nid cb2 st).
Proof.
  unfold register_action_callback. simpl. rewrite insert_insert_eq. reflexivity.
Qed.

(** X5: resolving one id never changes the handler registered under
    another id, whether the resolution succeeds or not. *)
Lemma handle_action_callback_other_ids (st st' : state) (nid other aid : string) (r : bool) :
  other <> nid ->
  handle_action_callback nid aid st = Ok (r, st') ->
  action_callbacks st' !! other = action_callbacks st !! other.
Proof.
  intros Hne. unfold handle_action_callback.
  destruct (action_callbacks st !! nid) as [cb|]; [|intros Heq; injection Heq as _ <-; reflexivity].
  destruct (cb aid); intros Heq; injection Heq as _ <-; simpl; [|reflexivity].
  apply lookup_delete_ne. congruence.
Qed.

Lemma handle_action_callback_other_ids_witness :
  ("n2" <> "n1" /\
   handle_action_callback "n1" "yes"
     (register_action_callback "n2" MacOS.accept_all
        (register_action_callback "n1" MacOS.accept_all empty_state)) =
   Ok (true, mk_state {[ "n2" := MacOS.accept_all ]} [("n1", "yes")])) /\
  action_callbacks (mk_state {[ "n2" := MacOS.accept_all ]} [("n1", "yes")]) !! "n2" =
  action_callbacks (register_action_callback "n2" MacOS.accept_all
        (register_action_callback "n1" MacOS.accept_all empty_state)) !! "n2".
Proof.
  assert (H : handle_action_callback "n1" "yes"
     (register_action_callback "n2" MacOS.accept_all
        (register_action_callback "n1" MacOS.accept_all empty_state)) =
   Ok (true, mk_state {[ "n2" := MacOS.accept_all ]} [("n1", "yes")])).
  { reflexivity. }
  split; [split; [discriminate|exact H]|].
  exact (handle_action_callback_other_ids _ _ "n1" "n2" "yes" true ltac:(discriminate) H).
Defined.

(** X6: [NotificationManager.__init__]'s port does not depend on the
    transient socket or the random generator when [settings["_port"]]
    is truthy or [use_fixed_port] is exactly True. *)
Lemma init_port_ignores_socket (settings : list (string * json))
    (b1 b2 : outcome Z) (w1 w2 : list Z) :
  Platform.truthy (get_default settings "_port" JNull) = true \/
  get_default settings "use_fixed_port" (JBool false) = JBool true ->
  Lifecycle.init_port settings b1 w1 = Lifecycle.init_port settings b2 w2.
Proof.
  intros H. unfold Lifecycle.init_port.
  destruct (Platform.truthy _) eqn:Ht; [reflexivity|].
  destruct H as [H|H]; [discriminate|].
  unfold Port.get_toast_notify_port. rewrite H. reflexivity.
Qed.

Lemma init_port_ignores_socket_witness :
  (Platform.truthy (get_default [("use_fixed_port", JBool true)] "_port" JNull) = true \/
   get_default [("use_fixed_port", JBool true)] "use_fixed_port" (JBool false) = JBool true) /\
  Lifecycle.init_port [("use_fixed_port", JBool true)] (Ok 40000) [] =
  Lifecycle.init_port [("use_fixed_port", JBool true)] (Raise OSError) [7].
Proof.
  assert (H : Platform.truthy (get_default [("use_fixed_port", JBool true)] "_port" JNull) = true \/
     get_default [("use_fixed_port", JBool true)] "use_fixed_port" (JBool false) = JBool true)
    by (right; reflexivity).
  split; [exact H|].
  exact (init_port_ignores_socket _ (Ok 40000) (Raise OSError) [] [7] H).
Defined.

(** X7: without a truthy [_port] and with [use_fixed_port] anything but
    the boolean True (missing, False, the string "true", 1, ...), the
    manager's port is the one the transient socket was bound to. *)
Lemma init_port_bound_socket (settings : list (string * json)) (p : Z) (words : list Z) :
  Platform.truthy (get_default settings "_port" JNull) = false ->
  get_default settings "use_fixed_port" (JBool false) <> JBool true ->
  Lifecycle.init_port settings (Ok p) words = Some (JNum p).
Proof.
  intros Ht Hf. unfold Lifecycle.init_port. rewrite Ht.
  unfold Port.get_toast_notify_port.
  destruct (get_default settings "use_fixed_port" (JBool false)) as [| [|] | | | |];
    congruence.
Qed.

Lemma init_port_bound_socket_witness :
  (Platform.truthy (get_default [("use_fixed_port", JStr "true")] "_port" JNull) = false /\
   get_default [("use_fixed_port", JStr "true")] "use_fixed_port" (JBool false) <> JBool true) /\
  Lifecycle.init_port [("use_fixed_port", JStr "true")] (Ok 40000) [] = Some (JNum 40000).
Proof.
  split; [split; [reflexivity|discriminate]|].
  apply init_port_bound_socket; [reflexivity|discriminate].
Defined.

(** X8: from a stopped manager without a server, [start] starts one
    worker and a second [start] none; a worker whose server could not be
    created clears [running], so the next [start] starts a new worker;
    after a successful creation a further [start] does nothing. [stop]
    before any server exists returns, whatever [create_connection]
    does, and a later [start] starts a new worker; [stop] once the
    server exists and the connection succeeds never returns. *)
Lemma lifecycle_workers (m : Lifecycle.manager) (e : exc) :
  Lifecycle.running m = false ->
  Lifecycle.has_server m = false ->
  Lifecycle.threads_started (Lifecycle.start m) = S (Lifecycle.threads_started m) /\
  Lifecycle.start (Lifecycle.start m) = Lifecycle.start m /\
  Lifecycle.start (Lifecycle.run_server_bind (Ok tt) (Lifecycle.start m)) =
    Lifecycle.run_server_bind (Ok tt) (Lifecycle.start m) /\
  Lifecycle.threads_started
    (Lifecycle.start (Lifecycle.run_server_bind (Raise e) (Lifecycle.start m))) =
    S (S (Lifecycle.threads_started m)) /\
  (forall c, exists m', Lifecycle.stop c (Lifecycle.start m) = Some m' /\
     Lifecycle.threads_started (Lifecycle.start m') =
       S (S (Lifecycle.threads_started m))) /\
  Lifecycle.stop (Ok tt) (Lifecycle.run_server_bind (Ok tt) (Lifecycle.start m)) = None.
Proof.
  intros Hr Hs. unfold Lifecycle.start, Lifecycle.stop. rewrite Hr. simpl. rewrite Hs.
  repeat split. intros c. eexists. split; reflexivity.
Qed.

Lemma lifecycle_workers_witness :
  Lifecycle.running Lifecycle.initial = false /\
  Lifecycle.has_server Lifecycle.initial = false /\
  Lifecycle.threads_started
    (Lifecycle.start (Lifecycle.run_server_bind (Raise OSError)
                        (Lifecycle.start Lifecycle.initial))) = 2%nat.
Proof.
  split; [reflexivity|]. split; [reflexivity|].
  destruct (lifecycle_workers Lifecycle.initial OSError eq_refl eq_refl)
    as (_ & _ & _ & H & _).
  exact H.
Defined.

Lemma attempts_cons (ev : Client.event) (evs : list Client.event) :
  Observe.attempts (ev :: evs) =
  ((if Observe.is_attempt ev then 1 else 0) + Observe.attempts evs)%nat.
Proof. unfold Observe.attempts. simpl. destruct (Observe.is_attempt ev); reflexivity. Qed.

Lemma attempts_app (l1 l2 : list Client.event) :
  Observe.attempts (app l1 l2) = (Observe.attempts l1 + Observe.attempts l2)%nat.
Proof.
  induction l1 as [|ev l1 IH]; [reflexivity|].
  simpl app. rewrite !attempts_cons, IH. lia.
Qed.

(** X9: [_try_http_notification] posts at most twice: it retries once
    exactly when the first [urlopen] raises [URLError] (connection
    refused, or any non-2xx status as [HTTPError]) or [socket.timeout];
    a response or any other exception ends it after one attempt. *)
Lemma try_http_attempt_count (dumps : json -> list Z) (loads : list Z -> outcome json)
    (urlopen : nat -> list Z -> Client.transport * list Client.event)
    (r : Client.send_req) :
  (forall n b, Observe.attempts (snd (urlopen n b)) = 0%nat) ->
  Client.skips_http r = false ->
  Observe.attempts (snd (Client.try_http_notification dumps loads urlopen r)) =
  match fst (urlopen 0%nat (dumps (Client.request_data r))) with
  | Client.TURLError | Client.TTimeout => 2%nat
  | _ => 1%nat
  end.
Proof.
  intros Hu Hs. unfold Client.try_http_notification. rewrite Hs.
  set (body := dumps (Client.request_data r)).
  pose proof (Hu 0%nat body) as H0. pose proof (Hu 1%nat body) as H1.
  cbn [Client.http_loop Nat.leb Client.max_retries].
  destruct (urlopen 0%nat body) as [t0 evs0] eqn:E0. simpl in H0.
  destruct t0 as [code rbody| | |e]; simpl.
  - destruct (code =? 200); [destruct (Client.read_status loads rbody)|]; simpl;
      rewrite attempts_cons, H0; reflexivity.
  - destruct (urlopen 1%nat body) as [t1 evs1] eqn:E1. simpl in H1.
    destruct t1 as [code1 rbody1| | |e1]; simpl;
      [destruct (code1 =? 200); [destruct (Client.read_status loads rbody1)|]|..];
      simpl; rewrite attempts_cons, attempts_app, attempts_cons, H0, H1; reflexivity.
  - destruct (urlopen 1%nat body) as [t1 evs1] eqn:E1. simpl in H1.
    destruct t1 as [code1 rbody1| | |e1]; simpl;
      [destruct (code1 =? 200); [destruct (Client.read_status loads rbody1)|]|..];
      simpl; rewrite attempts_cons, attempts_app, attempts_cons, H0, H1; reflexivity.
  - rewrite attempts_cons, H0; reflexivity.
Qed.

Lemma try_http_attempt_count_witness :
  ((forall (n : nat) (b : list Z),
      Observe.attempts (snd ((fun _ _ => (Client.TURLError, [])) n b
                             : Client.transport * list Client.event)) = 0%nat) /\
   Client.skips_http Scenario.req0 = false) /\
  Observe.attempts (snd (Client.try_http_notification Scenario.dumps0 Scenario.loads0
                           (fun _ _ => (Client.TURLError, [])) Scenario.req0)) = 2%nat.
Proof.
  assert (Hu : forall (n : nat) (b : list Z),
      Observe.attempts (snd ((fun _ _ => (Client.TURLError, [])) n b
                             : Client.transport * list Client.event)) = 0%nat)
    by (intros; reflexivity).
  split; [split; [exact Hu|reflexivity]|].
  exact (try_http_attempt_count Scenario.dumps0 Scenario.loads0
           (fun _ _ => (Client.TURLError, [])) Scenario.req0 Hu eq_refl).
Defined.

(** X10: when this process's server dispatches a POST and its handler
    returns True, [ToastNotifyClient.send_notification] returns True
    after one POST, with exactly one dispatch (the server's, which passes
    no [on_action]) and no in-process fallback. *)
Lemma send_server_success_no_fallback (dumps : json -> list Z)
    (loads : list Z -> outcome json) (sys : string) (nt : Z)
    (server_ph client_ph : option Platform.platform) (r : Client.send_req)
    (text rtext : list Z) (args : Server.notify_args) :
  Client.skips_http r = false ->
  utf8_decode (dumps (Client.request_data r)) = Some text ->
  loads text = Ok (Client.request_data r) ->
  Server.extract_args sys nt (Client.request_data r) = Ok args ->
  Platform.server_show server_ph nt args = true ->
  utf8_decode (dumps (Server.status_body true)) = Some rtext ->
  loads rtext = Ok (Server.status_body true) ->
  Client.send_notification dumps loads sys
    (Client.server_urlopen dumps loads sys server_ph nt) client_ph r =
  (true, [Client.EvHttpAttempt (dumps (Client.request_data r));
          Client.EvServerDispatch args]).
Proof.
  intros Hs Htext Hload Hargs Hshow Hrtext Hrload.
  set (body := dumps (Client.request_data r)).
  assert (Hsrv : forall n,
    Client.server_urlopen dumps loads sys server_ph nt n body =
      (Client.TResp 200 (dumps (Server.status_body true)),
       [Client.EvServerDispatch args])).
  { intros n. unfold Client.server_urlopen, Server.do_POST. simpl.
    unfold Server.notify_body. rewrite Props.read_body_full.
    unfold body. rewrite Htext, Hload, Hargs. rewrite Hshow. reflexivity. }
  assert (Hread : Client.read_status loads (dumps (Server.status_body true)) = Ok true).
  { unfold Client.read_status. rewrite Hrtext, Hrload. reflexivity. }
  unfold Client.send_notification, Client.try_http_notification.
  rewrite Hs. fold body. simpl. rewrite Hsrv. simpl. rewrite Hread.
  reflexivity.
Qed.

Lemma send_server_success_no_fallback_witness :
  let loads1 (t : list Z) : outcome json :=
    if bool_decide (t = [50]) then Ok (Server.status_body true)
    else Ok (Client.request_data Scenario.req0) in
  Client.send_notification Scenario.dumps0 loads1 "linux"
    (Client.server_urlopen Scenario.dumps0 loads1 "linux"
       (Some Scenario.client_handler0) 5)
    (Some Scenario.client_handler0) Scenario.req0 =
  (true, [Client.EvHttpAttempt [49]; Client.EvServerDispatch Scenario.args0]).
Proof.
  intros loads1.
  apply (send_server_success_no_fallback Scenario.dumps0 loads1 "linux" 5
           (Some Scenario.client_handler0) (Some Scenario.client_handler0)
           Scenario.req0 [49] [50] Scenario.args0); reflexivity.
Defined.

Lemma assoc_get_set_eq {A} (k : string) (v : A) (kv : list (string * A)) :
  assoc_get k (Wrapper.assoc_set k v kv) = Some v.
Proof.
  induction kv as [|[k' v'] kv IH]; simpl; [rewrite String.eqb_refl; reflexivity|].
  destruct (String.eqb k k') eqn:E; simpl; rewrite E; [reflexivity|exact IH].
Qed.

Lemma assoc_get_set_ne {A} (k k' : string) (v : A) (kv : list (string * A)) :
  k' <> k -> assoc_get k' (Wrapper.assoc_set k v kv) = assoc_get k' kv.
Proof.
  intros Hne. induction kv as [|[k0 v0] kv IH]; simpl.
  - apply String.eqb_neq in Hne. rewrite Hne. reflexivity.
  - destruct (String.eqb_spec k k0) as [<-|_]; simpl.
    + apply String.eqb_neq in Hne. rewrite Hne. reflexivity.
    + destruct (String.eqb k' k0); [reflexivity|exact IH].
Qed.

Lemma assoc_get_app {A} (k : string) (l1 l2 : list (string * A)) :
  assoc_get k (app l1 l2) =
  match assoc_get k l1 with Some v => Some v | None => assoc_get k l2 end.
Proof.
  induction l1 as [|[k1 v1] l1 IH]; simpl; [reflexivity|].
  destruct (String.eqb k k1); [reflexivity|exact IH].
Qed.

(** Successive [d[key] = value]: the last value of a key wins. *)
Lemma fold_assoc_set_get (l d : list (string * json)) (k : string) :
  assoc_get k (fold_left (fun d kv => Wrapper.assoc_set kv.1 kv.2 d) l d) =
  match assoc_get k (rev l) with Some v => Some v | None => assoc_get k d end.
Proof.
  induction l as [|[k1 v1] l IH] in d |- *; simpl; [reflexivity|].
  rewrite IH, assoc_get_app. destruct (assoc_get k (rev l)); [reflexivity|].
  simpl. destruct (String.eqb_spec k k1) as [->|Hne].
  - apply assoc_get_set_eq.
  - apply assoc_get_set_ne. exact Hne.
Qed.

Lemma merge_fold (sys : string) (l : list (string * json))
    (po : list (string * list (string * json))) (d : list (string * json)) :
  assoc_get sys po = Some d ->
  assoc_get sys
    (fold_left (fun po kv =>
                  let cur := match assoc_get sys po with Some d => d | None => [] end in
                  Wrapper.assoc_set sys (Wrapper.assoc_set kv.1 kv.2 cur) po) l po) =
    Some (fold_left (fun d kv => Wrapper.assoc_set kv.1 kv.2 d) l d) /\
  (forall s, s <> sys ->
     assoc_get s
       (fold_left (fun po kv =>
                     let cur := match assoc_get sys po with Some d => d | None => [] end in
                     Wrapper.assoc_set sys (Wrapper.assoc_set kv.1 kv.2 cur) po) l po) =
     assoc_get s po).
Proof.
  induction l as [|kv l IH] in po, d |- *; intros Hd; simpl; [split; [exact Hd|reflexivity]|].
  rewrite Hd.
  destruct (IH (Wrapper.assoc_set sys (Wrapper.assoc_set kv.1 kv.2 d) po)
              (Wrapper.assoc_set kv.1 kv.2 d) (assoc_get_set_eq _ _ _)) as [H1 H2].
  split; [exact H1|].
  intros s Hs. rewrite H2 by exact Hs. apply assoc_get_set_ne. exact Hs.
Qed.

(** X11: the module-level [send_notification] puts every additional
    keyword argument into the options of the current platform (the last
    value of a key wins over the caller's value), creating that entry
    when missing, and leaves the options of every other platform as the
    caller gave them. *)
Lemma merged_options_spec (sys : string) (c : Wrapper.call) :
  let po0 := match Wrapper.c_platform_options c with
             | Some ((_ :: _) as l) => l
             | _ => []
             end in
  let d0 := match assoc_get sys po0 with Some d => d | None => [] end in
  (exists d, assoc_get sys (Wrapper.merged_options sys c) = Some d /\
     forall k, assoc_get k d =
       match assoc_get k (rev (Wrapper.c_additional c)) with
       | Some v => Some v
       | None => assoc_get k d0
       end) /\
  (forall s, s <> sys -> assoc_get s (Wrapper.merged_options sys c) = assoc_get s po0).
Proof.
  intros po0 d0. unfold Wrapper.merged_options. fold po0.
  set (po1 := match assoc_get sys po0 with
              | Some _ => po0
              | None => app po0 [(sys, [])]
              end).
  assert (H1 : assoc_get sys po1 = Some d0).
  { unfold po1, d0. destruct (assoc_get sys po0) eqn:E; [exact E|].
    rewrite assoc_get_app, E. simpl. rewrite String.eqb_refl. reflexivity. }
  assert (H2 : forall s, s <> sys -> assoc_get s po1 = assoc_get s po0).
  { intros s Hs. unfold po1. destruct (assoc_get sys po0); [reflexivity|].
    rewrite assoc_get_app. destruct (assoc_get s po0); [reflexivity|].
    simpl. apply String.eqb_neq in Hs. rewrite Hs. reflexivity. }
  destruct (merge_fold sys (Wrapper.c_additional c) po1 d0 H1) as [H3 H4].
  split.
  - eexists. split; [exact H3|]. intros k. apply fold_assoc_set_get.
  - intros s Hs. rewrite H4 by exact Hs. apply H2. exact Hs.
Qed.

(** X12: [_send_async] calls the completion callback with the delivery
    result; when that call raises, the [except] calls it a second time,
    with False, whatever the result was. *)
Lemma send_async_callback_calls (dumps : json -> list Z) (loads : list Z -> outcome json)
    (sys : string) (urlopen : Z -> nat -> list Z -> Client.transport * list Client.event)
    (ph : option Platform.platform) (j : Wrapper.job) (cb : Wrapper.completion) :
  Wrapper.j_callback j = Some cb ->
  let res := fst (Client.send_notification dumps loads sys (urlopen (Wrapper.j_port j)) ph
                    (Wrapper.j_req j)) in
  fst (Wrapper.send_async dumps loads sys urlopen ph j) =
  (if is_ok (cb res) then [res] else [res; false]).
Proof.
  intros Hcb res. unfold Wrapper.send_async. fold res. rewrite Hcb.
  destruct (cb res); [reflexivity|]. destruct (cb false); reflexivity.
Qed.

Lemma send_async_callback_calls_witness :
  fst (Wrapper.send_async Scenario.dumps0 Scenario.loads0 "linux"
         (fun _ _ _ => (Client.TURLError, [])) None
         (Wrapper.mk_job 5127 Scenario.req0 (Some (fun _ => Raise ValueError)))) =
  [false; false].
Proof.
  exact (send_async_callback_calls Scenario.dumps0 Scenario.loads0 "linux"
           (fun _ _ _ => (Client.TURLError, [])) None
           (Wrapper.mk_job 5127 Scenario.req0 (Some (fun _ => Raise ValueError)))
           (fun _ => Raise ValueError) eq_refl).
Defined.

(** X13: [_process_alerter_response] calls [on_action] at most once, and
    never without one. *)
Lemma alerter_handler_at_most_once (exists_at cleanup_at : nat -> bool)
    (contents : outcome string) (on_action : option MacOS.action_handler) :
  (length (MacOS.process_alerter_response exists_at cleanup_at contents on_action) <= 1)%nat /\
  (on_action = None ->
   MacOS.process_alerter_response exists_at cleanup_at contents on_action = []).
Proof.
  unfold MacOS.process_alerter_response.
  destruct (MacOS.wait_for_file 60 0 exists_at cleanup_at) as [[|]|];
    [|split; [simpl; lia|reflexivity]..].
  destruct contents as [text|e]; [|split; [simpl; lia|reflexivity]].
  unfold MacOS.dispatch_response.
  destruct (_ || _); [split; [simpl; lia|reflexivity]|].
  destruct (String.eqb _ "@CONTENTCLICKED");
    [|destruct (String.prefix "@ACTIONCLICKED" _)];
    destruct on_action; split; simpl; try lia; try reflexivity; discriminate.
Qed.

(** The file is read exactly when some check [j] sees it, with no
    earlier check seeing it or the cancellation flag, and, when the loop
    was left at [j < m], the check of line 308 sees it again. *)
Lemma wait_for_file_true (m i : nat) (e c : nat -> bool) :
  MacOS.wait_for_file m i e c = Some true <->
  exists j, (j <= m)%nat /\ e (i + j)%nat = true /\
    ((j < m)%nat -> e (S (i + j)) = true) /\
    forall k, (k < j)%nat -> e (i + k)%nat = false /\ c (i + k)%nat = false.
Proof.
  induction m as [|m IH] in i |- *; simpl.
  - split.
    + intros H. injection H as H. exists 0%nat. rewrite Nat.add_0_r.
      repeat split; [lia|exact H|lia|lia..].
    + intros (j & Hj & Hej & _ & _). assert (j = 0%nat) by lia. subst j.
      rewrite Nat.add_0_r in Hej. rewrite Hej. reflexivity.
  - destruct (e i) eqn:Ei.
    + split.
      * intros H. injection H as H. exists 0%nat. rewrite Nat.add_0_r.
        repeat split; [lia|exact Ei|intros _; exact H|lia|lia].
      * intros (j & Hj & Hej & Hnext & Hk).
        destruct j as [|j].
        -- rewrite Nat.add_0_r in Hnext. rewrite Hnext; [reflexivity|lia].
        -- destruct (Hk 0%nat ltac:(lia)) as [He _]. rewrite Nat.add_0_r in He.
           congruence.
    + destruct (c i) eqn:Ci.
      * split; [discriminate|]. intros (j & Hj & Hej & _ & Hk).
        destruct j as [|j]; [rewrite Nat.add_0_r in Hej; congruence|].
        destruct (Hk 0%nat ltac:(lia)) as [_ Hc]. rewrite Nat.add_0_r in Hc.
        congruence.
      * rewrite IH. split.
        -- intros (j & Hj & Hej & Hnext & Hk). exists (S j). split; [lia|].
           replace (i + S j)%nat with (S i + j)%nat by lia.
           split; [exact Hej|]. split; [intros H; apply Hnext; lia|].
           intros k Hk'. destruct k as [|k].
           { rewrite Nat.add_0_r. split; assumption. }
           replace (i + S k)%nat with (S i + k)%nat by lia. apply Hk. lia.
        -- intros (j & Hj & Hej & Hnext & Hk).
           destruct j as [|j]; [rewrite Nat.add_0_r in Hej; congruence|].
           exists j. split; [lia|].
           replace (S i + j)%nat with (i + S j)%nat by lia.
           split; [exact Hej|]. split; [intros H; apply Hnext; lia|].
           intros k Hk'. replace (S i + k)%nat with (i + S k)%nat by lia.
           apply Hk. lia.
Qed.

(** X14: [_process_alerter_response] reads the response (and dispatches
    its stripped text) exactly when the file is seen at one of the
    checks 0..60 before the cancellation flag has been seen and, if that
    check ended the loop early, is still there at the check of line 308;
    otherwise (time-out, cancellation while waiting, or the file gone
    again) it calls nothing. *)
Lemma alerter_reads_response_iff (exists_at cleanup_at : nat -> bool) (text : string)
    (on_action : option MacOS.action_handler) :
  ((exists j, (j <= 60)%nat /\ exists_at j = true /\
      ((j < 60)%nat -> exists_at (S j) = true) /\
      forall k, (k < j)%nat -> exists_at k = false /\ cleanup_at k = false) ->
   MacOS.process_alerter_response exists_at cleanup_at (Ok text) on_action =
     MacOS.dispatch_response (MacOS.strip text) on_action) /\
  (~ (exists j, (j <= 60)%nat /\ exists_at j = true /\
        ((j < 60)%nat -> exists_at (S j) = true) /\
        forall k, (k < j)%nat -> exists_at k = false /\ cleanup_at k = false) ->
   MacOS.process_alerter_response exists_at cleanup_at (Ok text) on_action = []).
Proof.
  unfold MacOS.process_alerter_response. split.
  - intros Hex.
    assert (W : MacOS.wait_for_file 60 0 exists_at cleanup_at = Some true)
      by (apply wait_for_file_true; exact Hex).
    rewrite W. reflexivity.
  - intros Hno.
    destruct (MacOS.wait_for_file 60 0 exists_at cleanup_at) as [[|]|] eqn:W;
      try reflexivity.
    exfalso. apply Hno. apply wait_for_file_true in W. exact W.
Qed.



Lemma assoc_get_options_json (k : string) (l : list (string * list (string * json))) :
  assoc_get k (map (fun p => (p.1, JObj p.2)) l) = option_map JObj (assoc_get k l).
Proof.
  induction l as [|[k1 v1] l IH]; simpl; [reflexivity|].
  destruct (String.eqb k k1); [reflexivity|exact IH].
Qed.

(** X16: the server reads back the request the client builds: the
    client's title, message, timeout and actions ([None] as []), its
    icon when truthy ([None] otherwise), and as options the client's
    entry for the server's platform without its [timeout]; the only
    failure is a [TypeError] when that entry names a parameter of the
    call. *)
Lemma server_reads_client_request (sys : string) (nt : Z) (r : Client.send_req) :
  let base so := Server.mk_args (Client.s_title r) (Client.s_message r)
                   (if Platform.truthy (Client.s_icon r) then Client.s_icon r else JNull)
                   (Client.s_timeout r)
                   (JArr (Client.actions_or_empty (Client.s_actions r))) so in
  Server.extract_args sys nt (Client.request_data r) =
  match Client.s_platform_options r with
  | Some ((_ :: _) as l) =>
      match assoc_get sys l with
      | None => Ok (base [])
      | Some so =>
          if existsb (fun p => bool_decide (p.1 ∈ Server.explicit_params))
               (assoc_remove "timeout" so)
          then Raise TypeError
          else Ok (base (assoc_remove "timeout" so))
      end
  | _ => Ok (base [])
  end.
Proof.
  intros base. unfold base, Client.request_data, Server.extract_args.
  destruct (Client.s_platform_options r) as [[|p l]|].
  - destruct (Platform.truthy (Client.s_icon r)); reflexivity.
  - unfold Client.options_json.
    destruct (Platform.truthy (Client.s_icon r)); simpl;
      unfold get_default; simpl; rewrite assoc_get_options_json;
      destruct p as [k v]; simpl; (destruct (String.eqb sys k);
      [reflexivity|destruct (assoc_get sys l); reflexivity]).
  - destruct (Platform.truthy (Client.s_icon r)); reflexivity.
Qed.

End Extras.
